(** * Rank calculation of github-readme-stats ([src/calculateRank.js])

    A shallow embedding of [exponential_cdf], [log_normal_cdf] and
    [calculateRank], in two readings of the numbers of the source.

    Exact reading.  [exponential_cdf], [log_normal_cdf] and [calculateRank]
    below take a JavaScript number for the real number it denotes and the
    operators [+], [-], [*], [/] and [**] for exact real arithmetic
    ([2 ** y] is [Rpower 2 y]).  This is what the formulas of the source
    mean; it knows no rounding, no overflow and no [NaN], and a division by
    zero (ratio [-1] in [log_normal_cdf], a negative metric) is outside of
    it.

    Binary64 reading.  Module [B64] has the same three functions on IEEE
    binary64 numbers, as the engine runs them: [+], [-], [*], [/] and [<=]
    are the primitive operations of the format, with their rounding,
    infinities and [NaN].  [**] is left to the engine by the language; the
    functions of [B64] take it as an argument [pow2], and the statements
    about them hold for every [pow2] that returns the exact power of two at
    an integral exponent where that power is a binary64 number.

    A property of the percentile is stated on the exact reading for the
    inputs on which the binary64 reading cannot contradict it (see
    [in_range]) and proved there; where the binary64 result departs from
    the exact one, a lemma on [B64] evaluates the code at an input that
    shows it.

    Values.  [undefined] is [None]: the grade label of a result is an
    [option string].  An array is a [list]; an index is an integer of [Z],
    since [findIndex] answers [-1] when nothing is found. *)

From Stdlib Require Import Reals Lra List ZArith Lia String.
From Stdlib Require Import Floats.
Import ListNotations.

#[local] Set Warnings "-inexact-float".

Local Open Scope R_scope.

(** ** JavaScript primitives used by the source *)

Module Js.

(** [x <= y] on numbers, as a boolean. *)
Definition le (x y : R) : bool := if Rle_dec x y then true else false.

(** [Array.prototype.findIndex]: the index of the first element that
    satisfies [p], or [-1]. *)
Fixpoint findIndex_from {A : Type} (p : A -> bool) (l : list A) (k : Z) : Z :=
  match l with
  | [] => (-1)%Z
  | a :: l' => if p a then k else findIndex_from p l' (k + 1)%Z
  end.

Definition findIndex {A : Type} (l : list A) (p : A -> bool) : Z :=
  findIndex_from p l 0%Z.

(** [l[i]] for an integer [i]: the element, or [undefined] outside of
    [0 .. length l - 1]. *)
Definition get {A : Type} (l : list A) (i : Z) : option A :=
  if (i <? 0)%Z then None else nth_error l (Z.to_nat i).

End Js.

(** ** The two normalisations, exact reading *)

(** [function exponential_cdf(x) { return 1 - 2 ** -x; }] *)
Definition exponential_cdf (x : R) : R := 1 - Rpower 2 (- x).

(** [function log_normal_cdf(x) { return x / (1 + x); }] *)
Definition log_normal_cdf (x : R) : R := x / (1 + x).

(** ** Data *)

(** The parameter object of [calculateRank]. *)
Module Params.
Record t : Type := make {
  all_commits : bool;
  commits : R;
  prs : R;
  issues : R;
  reviews : R;
  repos : R;
  stars : R;
  followers : R
}.
End Params.

(** An object with one number per scored metric ([scores], [weights],
    [weighted_contributions]). *)
Module PerMetric.
Record t : Type := make {
  commits : R;
  prs : R;
  issues : R;
  reviews : R;
  stars : R;
  followers : R
}.
End PerMetric.

(** The [detailed] object. *)
Module Detailed.
Record t : Type := make {
  level : option string;
  percentile : R;
  scores : PerMetric.t;
  weights : PerMetric.t;
  weighted_contributions : PerMetric.t;
  total_weighted_score : R;
  max_possible_score : R
}.
End Detailed.

(** The returned object [{ level, percentile, detailed }]. *)
Module Rank.
Record t : Type := make {
  level : option string;
  percentile : R;
  detailed : Detailed.t
}.
End Rank.

(** ** Constants of [calculateRank] *)

Definition COMMITS_MEDIAN (all_commits : bool) : R :=
  if all_commits then 400 else 80.
Definition COMMITS_WEIGHT : R := 15.
Definition PRS_MEDIAN : R := 15.
Definition PRS_WEIGHT : R := 3.
Definition ISSUES_MEDIAN : R := 2.
Definition ISSUES_WEIGHT : R := 0.5.
Definition REVIEWS_MEDIAN : R := 2.
Definition REVIEWS_WEIGHT : R := 0.5.
Definition STARS_MEDIAN : R := 0.1.
Definition STARS_WEIGHT : R := 0.05.
Definition FOLLOWERS_MEDIAN : R := 2.
Definition FOLLOWERS_WEIGHT : R := 0.5.

Definition TOTAL_WEIGHT : R :=
  COMMITS_WEIGHT + PRS_WEIGHT + ISSUES_WEIGHT + REVIEWS_WEIGHT +
  STARS_WEIGHT + FOLLOWERS_WEIGHT.

Definition THRESHOLDS : list R :=
  [0.1; 0.5; 1; 5; 12.5; 25; 37.5; 50; 62.5; 75; 87.5; 100].

Definition LEVELS : list string :=
  ["S++"; "S+"; "S"; "S-"; "A+"; "A"; "A-"; "B+"; "B"; "B-"; "C+"; "C"]%string.

(** ** The grade lookup

    [LEVELS[THRESHOLDS.findIndex((t) => rank * 100 <= t)]], as a function of
    the percentile [rank * 100]. *)
Definition level_of (percentile : R) : option string :=
  Js.get LEVELS (Js.findIndex THRESHOLDS (fun t => Js.le percentile t)).

(** ** [calculateRank], exact reading *)

Definition calculateRank (p : Params.t) : Rank.t :=
  let commits_score :=
    exponential_cdf (Params.commits p / COMMITS_MEDIAN (Params.all_commits p)) in
  let prs_score := exponential_cdf (Params.prs p / PRS_MEDIAN) in
  let issues_score := exponential_cdf (Params.issues p / ISSUES_MEDIAN) in
  let reviews_score := exponential_cdf (Params.reviews p / REVIEWS_MEDIAN) in
  let stars_score := log_normal_cdf (Params.stars p / STARS_MEDIAN) in
  let followers_score := log_normal_cdf (Params.followers p / FOLLOWERS_MEDIAN) in
  let weighted_sum :=
    COMMITS_WEIGHT * commits_score +
    PRS_WEIGHT * prs_score +
    ISSUES_WEIGHT * issues_score +
    REVIEWS_WEIGHT * reviews_score +
    STARS_WEIGHT * stars_score +
    FOLLOWERS_WEIGHT * followers_score in
  let rank := 1 - weighted_sum / TOTAL_WEIGHT in
  let level := level_of (rank * 100) in
  let detailed :=
    {| Detailed.level := level;
       Detailed.percentile := rank * 100;
       Detailed.scores :=
         {| PerMetric.commits := commits_score;
            PerMetric.prs := prs_score;
            PerMetric.issues := issues_score;
            PerMetric.reviews := reviews_score;
            PerMetric.stars := stars_score;
            PerMetric.followers := followers_score |};
       Detailed.weights :=
         {| PerMetric.commits := COMMITS_WEIGHT;
            PerMetric.prs := PRS_WEIGHT;
            PerMetric.issues := ISSUES_WEIGHT;
            PerMetric.reviews := REVIEWS_WEIGHT;
            PerMetric.stars := STARS_WEIGHT;
            PerMetric.followers := FOLLOWERS_WEIGHT |};
       Detailed.weighted_contributions :=
         {| PerMetric.commits := COMMITS_WEIGHT * commits_score;
            PerMetric.prs := PRS_WEIGHT * prs_score;
            PerMetric.issues := ISSUES_WEIGHT * issues_score;
            PerMetric.reviews := REVIEWS_WEIGHT * reviews_score;
            PerMetric.stars := STARS_WEIGHT * stars_score;
            PerMetric.followers := FOLLOWERS_WEIGHT * followers_score |};
       Detailed.total_weighted_score := weighted_sum;
       Detailed.max_possible_score := TOTAL_WEIGHT |} in
  {| Rank.level := level;
     Rank.percentile := rank * 100;
     Rank.detailed := detailed |}.

(** ** The computation in binary64 *)

Module B64.

Local Open Scope float_scope.

(** The integer that a number is, when it is one. *)
Definition integral (y : float) : option Z :=
  match Prim2SF y with
  | S754_zero _ => Some 0%Z
  | S754_finite s m e =>
      let n := if (0 <=? e)%Z then Some (Zpos m * 2 ^ e)%Z
               else if (Zpos m mod 2 ^ (- e) =? 0)%Z
                    then Some (Zpos m / 2 ^ (- e))%Z
                    else None in
      option_map (fun n => if s then (- n)%Z else n) n
  | _ => None
  end.

(** [2 ** y] where every engine agrees: at an integral [y] from -1074 to
    1023 the power of two is a binary64 number, and it is the result. *)
Definition pow2_exact (y : float) : option float :=
  match integral y with
  | Some n =>
      if andb (-1074 <=? n)%Z (n <=? 1023)%Z then Some (Z.ldexp 1 n) else None
  | None => None
  end.

(** An engine's [y => 2 ** y]: any function that is exact where
    [pow2_exact] is defined. *)
Definition conforming (pow2 : float -> float) : Prop :=
  forall y r, pow2_exact y = Some r -> pow2 y = r.

(** [P] holds of the code on every engine. *)
Definition on_every_engine (P : (float -> float) -> Prop) : Prop :=
  forall pow2, conforming pow2 -> P pow2.

(** One engine, to show that there is one: exact where the power is
    determined, and [NaN] elsewhere. *)
Definition pow2_reference (y : float) : float :=
  match pow2_exact y with
  | Some r => r
  | None => nan
  end.

(** [function log_normal_cdf(x) { return x / (1 + x); }] *)
Definition log_normal_cdf (x : float) : float := x / (1 + x).

Module Params.
Record t : Type := make {
  all_commits : bool;
  commits : float;
  prs : float;
  issues : float;
  reviews : float;
  repos : float;
  stars : float;
  followers : float
}.
End Params.

Module PerMetric.
Record t : Type := make {
  commits : float;
  prs : float;
  issues : float;
  reviews : float;
  stars : float;
  followers : float
}.
End PerMetric.

Module Detailed.
Record t : Type := make {
  level : option string;
  percentile : float;
  scores : PerMetric.t;
  weights : PerMetric.t;
  weighted_contributions : PerMetric.t;
  total_weighted_score : float;
  max_possible_score : float
}.
End Detailed.

Module Rank.
Record t : Type := make {
  level : option string;
  percentile : float;
  detailed : Detailed.t
}.
End Rank.

Definition THRESHOLDS : list float :=
  [0.1; 0.5; 1; 5; 12.5; 25; 37.5; 50; 62.5; 75; 87.5; 100].

(** [LEVELS[THRESHOLDS.findIndex((t) => rank * 100 <= t)]]; a comparison
    with [NaN] is false. *)
Definition level_of (percentile : float) : option string :=
  Js.get LEVELS (Js.findIndex THRESHOLDS (fun t => percentile <=? t)).

Section Engine.

Variable pow2 : float -> float.

(** [function exponential_cdf(x) { return 1 - 2 ** -x; }] *)
Definition exponential_cdf (x : float) : float := 1 - pow2 (- x).

Definition calculateRank (p : Params.t) : Rank.t :=
  let COMMITS_MEDIAN := if Params.all_commits p then 400 else 80 in
  let COMMITS_WEIGHT := 15 in
  let PRS_MEDIAN := 15 in
  let PRS_WEIGHT := 3 in
  let ISSUES_MEDIAN := 2 in
  let ISSUES_WEIGHT := 0.5 in
  let REVIEWS_MEDIAN := 2 in
  let REVIEWS_WEIGHT := 0.5 in
  let STARS_MEDIAN := 0.1 in
  let STARS_WEIGHT := 0.05 in
  let FOLLOWERS_MEDIAN := 2 in
  let FOLLOWERS_WEIGHT := 0.5 in
  let TOTAL_WEIGHT :=
    COMMITS_WEIGHT + PRS_WEIGHT + ISSUES_WEIGHT + REVIEWS_WEIGHT +
    STARS_WEIGHT + FOLLOWERS_WEIGHT in
  let commits_score := exponential_cdf (Params.commits p / COMMITS_MEDIAN) in
  let prs_score := exponential_cdf (Params.prs p / PRS_MEDIAN) in
  let issues_score := exponential_cdf (Params.issues p / ISSUES_MEDIAN) in
  let reviews_score := exponential_cdf (Params.reviews p / REVIEWS_MEDIAN) in
  let stars_score := log_normal_cdf (Params.stars p / STARS_MEDIAN) in
  let followers_score := log_normal_cdf (Params.followers p / FOLLOWERS_MEDIAN) in
  let weighted_sum :=
    COMMITS_WEIGHT * commits_score +
    PRS_WEIGHT * prs_score +
    ISSUES_WEIGHT * issues_score +
    REVIEWS_WEIGHT * reviews_score +
    STARS_WEIGHT * stars_score +
    FOLLOWERS_WEIGHT * followers_score in
  let rank := 1 - weighted_sum / TOTAL_WEIGHT in
  let level := level_of (rank * 100) in
  let detailed :=
    {| Detailed.level := level;
       Detailed.percentile := rank * 100;
       Detailed.scores :=
         {| PerMetric.commits := commits_score;
            PerMetric.prs := prs_score;
            PerMetric.issues := issues_score;
            PerMetric.reviews := reviews_score;
            PerMetric.stars := stars_score;
            PerMetric.followers := followers_score |};
       Detailed.weights :=
         {| PerMetric.commits := COMMITS_WEIGHT;
            PerMetric.prs := PRS_WEIGHT;
            PerMetric.issues := ISSUES_WEIGHT;
            PerMetric.reviews := REVIEWS_WEIGHT;
            PerMetric.stars := STARS_WEIGHT;
            PerMetric.followers := FOLLOWERS_WEIGHT |};
       Detailed.weighted_contributions :=
         {| PerMetric.commits := COMMITS_WEIGHT * commits_score;
            PerMetric.prs := PRS_WEIGHT * prs_score;
            PerMetric.issues := ISSUES_WEIGHT * issues_score;
            PerMetric.reviews := REVIEWS_WEIGHT * reviews_score;
            PerMetric.stars := STARS_WEIGHT * stars_score;
            PerMetric.followers := FOLLOWERS_WEIGHT * followers_score |};
       Detailed.total_weighted_score := weighted_sum;
       Detailed.max_possible_score := TOTAL_WEIGHT |} in
  {| Rank.level := level;
     Rank.percentile := rank * 100;
     Rank.detailed := detailed |}.

End Engine.

(** The six scored metrics of an input are non-negative finite numbers. *)
Definition nonneg_finite (p : Params.t) : bool :=
  forallb (fun m => andb (0 <=? m) (m <? infinity))
    [Params.commits p; Params.prs p; Params.issues p; Params.reviews p;
     Params.stars p; Params.followers p].


End B64.

(** ** Vocabulary of the properties *)

(** The six scored metrics. *)
Inductive metric : Type :=
  Commits | Prs | Issues | Reviews | Stars | Followers.

Definition metric_of (m : metric) (p : Params.t) : R :=
  match m with
  | Commits => Params.commits p
  | Prs => Params.prs p
  | Issues => Params.issues p
  | Reviews => Params.reviews p
  | Stars => Params.stars p
  | Followers => Params.followers p
  end.

(** The documented domain: every scored metric is non-negative. *)
Definition nonneg_metrics (p : Params.t) : Prop :=
  forall m, 0 <= metric_of m p.

(** The bound on [stars] of the properties of the percentile.  The largest
    binary64 number is about 1.7977e308, so that [stars / 0.1] is a finite
    number of the code only for [stars] up to about 1.7977e307; beyond, it
    is [Infinity] and the score of the stars is [NaN]. *)
Definition STARS_LIMIT : R := 1.79e307.

(** The inputs the properties of the percentile are about: non-negative
    metrics, with [stars] up to the bound. *)
Definition in_range (p : Params.t) : Prop :=
  nonneg_metrics p /\ Params.stars p <= STARS_LIMIT.

(** The input with every scored metric at zero. *)
Definition all_zero (all_commits : bool) (repos : R) : Params.t :=
  Params.make all_commits 0 0 0 0 repos 0 0.


(** [p] and [q] agree on every field except [repos]. *)
Definition agree_except_repos (p q : Params.t) : Prop :=
  Params.all_commits p = Params.all_commits q /\
  forall m, metric_of m p = metric_of m q.

(** The lowest grade: the last label of [LEVELS]. *)
Definition lowest_level : string := last LEVELS EmptyString.

(** [f] tends to [1] from below as its argument grows. *)
Definition approaches_one (f : R -> R) : Prop :=
  forall eps, 0 < eps -> exists M, forall x, M < x -> 1 - eps < f x < 1.

(** The median a scored metric is divided by. *)
Definition median_of (all_commits : bool) (m : metric) : R :=
  match m with
  | Commits => COMMITS_MEDIAN all_commits
  | Prs => PRS_MEDIAN
  | Issues => ISSUES_MEDIAN
  | Reviews => REVIEWS_MEDIAN
  | Stars => STARS_MEDIAN
  | Followers => FOLLOWERS_MEDIAN
  end.

(** The score of a metric in the breakdown of a result. *)
Definition score_of (m : metric) (r : Rank.t) : R :=
  let s := Detailed.scores (Rank.detailed r) in
  match m with
  | Commits => PerMetric.commits s
  | Prs => PerMetric.prs s
  | Issues => PerMetric.issues s
  | Reviews => PerMetric.reviews s
  | Stars => PerMetric.stars s
  | Followers => PerMetric.followers s
  end.

(** ** Proof steps shared below *)

(** A median is positive. *)
Ltac median_pos :=
  unfold COMMITS_MEDIAN, PRS_MEDIAN, ISSUES_MEDIAN, REVIEWS_MEDIAN,
    STARS_MEDIAN, FOLLOWERS_MEDIAN;
  try match goal with |- context [if ?b then _ else _] => destruct b end;
  lra.

(** The weights as numerals. *)
Ltac unfold_weights :=
  unfold TOTAL_WEIGHT, COMMITS_WEIGHT, PRS_WEIGHT, ISSUES_WEIGHT,
    REVIEWS_WEIGHT, STARS_WEIGHT, FOLLOWERS_WEIGHT in *.

(** One comparison [Js.le a b] between numerals, decided either way. *)
Ltac decide_le :=
  match goal with
  | |- context [Rle_dec ?a ?b] =>
      destruct (Rle_dec a b); [try (exfalso; lra) | try (exfalso; lra)]
  end.

(** The lookup at a numeral: the thresholds are compared one by one. *)
Ltac eval_level_of :=
  unfold level_of, Js.findIndex, THRESHOLDS; cbn [Js.findIndex_from];
  unfold Js.le; repeat decide_le; reflexivity.

(** The code on an engine [pow2] at a given input: the numbers are
    computed, and each power at an exponent where it is determined is
    replaced by its value. *)
Ltac b64_run pow2 Hc :=
  repeat (vm_compute;
          match goal with
          | |- context [pow2 ?y] =>
              let r := eval vm_compute in (B64.pow2_exact y) in
              match r with
              | Some ?v => rewrite (Hc y v) by (vm_compute; reflexivity)
              end
          end);
  vm_compute.

(** ** The total weight *)

Lemma TOTAL_WEIGHT_value : TOTAL_WEIGHT = 19.55.
Proof. unfold_weights. lra. Qed.

(** ** The normalisations on non-negative ratios *)

Lemma exponential_cdf_0 : exponential_cdf 0 = 0.
Proof.
  unfold exponential_cdf. rewrite Ropp_0, Rpower_O by lra. lra.
Qed.

Lemma log_normal_cdf_0 : log_normal_cdf 0 = 0.
Proof. unfold log_normal_cdf. lra. Qed.

Lemma exponential_cdf_lt_1 (x : R) : exponential_cdf x < 1.
Proof.
  unfold exponential_cdf, Rpower.
  pose proof (exp_pos (- x * ln 2)). lra.
Qed.

Lemma exponential_cdf_incr (x y : R) :
  x <= y -> exponential_cdf x <= exponential_cdf y.
Proof.
  intros Hxy. unfold exponential_cdf.
  assert (Rpower 2 (- y) <= Rpower 2 (- x)) by (apply Rle_Rpower; lra).
  lra.
Qed.

Lemma exponential_cdf_nonneg (x : R) : 0 <= x -> 0 <= exponential_cdf x.
Proof.
  intros Hx. rewrite <- exponential_cdf_0. now apply exponential_cdf_incr.
Qed.

Lemma log_normal_cdf_range (x : R) : 0 <= x -> 0 <= log_normal_cdf x < 1.
Proof.
  intros Hx. unfold log_normal_cdf.
  assert (H1 : 0 < 1 + x) by lra.
  split.
  - apply Rmult_le_pos; [lra | left; now apply Rinv_0_lt_compat].
  - apply (Rmult_lt_reg_r (1 + x)); [assumption |].
    unfold Rdiv. rewrite Rmult_assoc, Rinv_l by lra. lra.
Qed.

Lemma log_normal_cdf_incr (x y : R) :
  0 <= x -> x <= y -> log_normal_cdf x <= log_normal_cdf y.
Proof.
  intros Hx Hxy. unfold log_normal_cdf.
  assert (Hx1 : 0 < 1 + x) by lra.
  assert (Hy1 : 0 < 1 + y) by lra.
  apply (Rmult_le_reg_r ((1 + x) * (1 + y))); [now apply Rmult_lt_0_compat |].
  replace (x / (1 + x) * ((1 + x) * (1 + y))) with (x * (1 + y))
    by (field; lra).
  replace (y / (1 + y) * ((1 + x) * (1 + y))) with (y * (1 + x))
    by (field; lra).
  nra.
Qed.

(** ** Ratios to a positive median *)

Lemma ratio_nonneg (x m : R) : 0 < m -> 0 <= x -> 0 <= x / m.
Proof.
  intros Hm Hx. apply Rmult_le_pos; [assumption |].
  left. now apply Rinv_0_lt_compat.
Qed.


(** ** The weighted sum, on six scores *)

Section WeightedSum.

Variables c p i r s f : R.

Lemma weighted_sum_bounds :
  0 <= c < 1 -> 0 <= p < 1 -> 0 <= i < 1 -> 0 <= r < 1 ->
  0 <= s < 1 -> 0 <= f < 1 ->
  0 <= COMMITS_WEIGHT * c + PRS_WEIGHT * p + ISSUES_WEIGHT * i +
       REVIEWS_WEIGHT * r + STARS_WEIGHT * s + FOLLOWERS_WEIGHT * f
    < TOTAL_WEIGHT.
Proof. intros Hc Hp Hi Hr Hs Hf. unfold_weights. lra. Qed.

Variables c' p' i' r' s' f' : R.


End WeightedSum.

(** ** Scores of an input of the documented domain *)

Lemma scores_range (p : Params.t) :
  nonneg_metrics p ->
  let s := Detailed.scores (Rank.detailed (calculateRank p)) in
  0 <= PerMetric.commits s < 1 /\ 0 <= PerMetric.prs s < 1 /\
  0 <= PerMetric.issues s < 1 /\ 0 <= PerMetric.reviews s < 1 /\
  0 <= PerMetric.stars s < 1 /\ 0 <= PerMetric.followers s < 1.
Proof.
  intros H. cbn.
  pose proof (H Commits) as Hc. pose proof (H Prs) as Hp.
  pose proof (H Issues) as Hi. pose proof (H Reviews) as Hr.
  pose proof (H Stars) as Hs. pose proof (H Followers) as Hf.
  cbn in Hc, Hp, Hi, Hr, Hs, Hf.
  repeat split;
    try apply exponential_cdf_lt_1;
    try (apply exponential_cdf_nonneg; apply ratio_nonneg;
         [median_pos | assumption]);
    try (apply log_normal_cdf_range; apply ratio_nonneg;
         [median_pos | assumption]).
Qed.

Lemma total_weighted_score_bounds (p : Params.t) :
  nonneg_metrics p ->
  0 <= Detailed.total_weighted_score (Rank.detailed (calculateRank p))
    < TOTAL_WEIGHT.
Proof.
  intros H. destruct (scores_range p H) as (Hc & Hp & Hi & Hr & Hs & Hf).
  cbn in *. now apply weighted_sum_bounds.
Qed.

Lemma percentile_eq (p : Params.t) :
  Rank.percentile (calculateRank p) =
  (1 - Detailed.total_weighted_score (Rank.detailed (calculateRank p))
       / TOTAL_WEIGHT) * 100.
Proof. reflexivity. Qed.

Lemma level_eq (p : Params.t) :
  Rank.level (calculateRank p) = level_of (Rank.percentile (calculateRank p)).
Proof. reflexivity. Qed.

(** ** Range of the percentile *)

(** C1, as the code has it: for an input whose six scored metrics are
    non-negative, with [stars] up to the bound that keeps [stars / 0.1]
    finite, the percentile returned by [calculateRank] lies in the closed
    interval from 0 to 100. *)
Theorem percentile_in_0_100 (p : Params.t) :
  in_range p ->
  0 <= Rank.percentile (calculateRank p) <= 100.
Proof.
  intros [H _]. rewrite percentile_eq.
  pose proof (total_weighted_score_bounds p H) as Hb.
  set (w := Detailed.total_weighted_score _) in *. clearbody w.
  rewrite TOTAL_WEIGHT_value in *. lra.
Qed.

Lemma percentile_in_0_100_witness :
  0 <= Rank.percentile (calculateRank (all_zero false 7)) <= 100.
Proof.
  apply percentile_in_0_100. split.
  - intros []; cbn; lra.
  - cbn. unfold STARS_LIMIT. lra.
Defined.

(** ** Monotonicity of the percentile *)





(** ** The JavaScript primitives *)

Lemma Js_le_true (x y : R) : x <= y -> Js.le x y = true.
Proof. intros H. unfold Js.le. destruct (Rle_dec x y); [reflexivity | contradiction]. Qed.

Lemma Js_le_false (x y : R) : y < x -> Js.le x y = false.
Proof. intros H. unfold Js.le. destruct (Rle_dec x y); [lra | reflexivity]. Qed.

Lemma Js_le_false_inv (x y : R) : Js.le x y = false -> y < x.
Proof. unfold Js.le. destruct (Rle_dec x y); [discriminate | intros _; lra]. Qed.

Lemma Js_le_true_inv (x y : R) : Js.le x y = true -> x <= y.
Proof. unfold Js.le. destruct (Rle_dec x y); [trivial | discriminate]. Qed.

Section FindIndex.

Context {A : Type} (f : A -> bool).

(** Nothing satisfies [f]: the answer is [-1]. *)
Lemma findIndex_from_none (l : list A) (k : Z) :
  (forall a, In a l -> f a = false) -> Js.findIndex_from f l k = (-1)%Z.
Proof.
  revert k. induction l as [| a l IH]; intros k H; cbn.
  - reflexivity.
  - rewrite (H a) by now left.
    apply IH. intros b Hb. apply H. now right.
Qed.

(** Something satisfies [f]: the answer is the position of the first
    such element, counted from [k]. *)
Lemma findIndex_from_first (l : list A) (k : Z) :
  (exists a, In a l /\ f a = true) ->
  exists (n : nat) (a : A),
    nth_error l n = Some a /\ f a = true /\
    (forall j b, (j < n)%nat -> nth_error l j = Some b -> f b = false) /\
    Js.findIndex_from f l k = (k + Z.of_nat n)%Z.
Proof.
  revert k. induction l as [| a l IH]; intros k (x & Hin & Hx).
  - destruct Hin.
  - cbn [Js.findIndex_from]. destruct (f a) eqn:Ha.
    + exists 0%nat, a. repeat split; trivial.
      * intros j b Hj. lia.
      * cbn. lia.
    + assert (Hl : exists y, In y l /\ f y = true).
      { destruct Hin as [-> | Hin]; [congruence | now exists x]. }
      destruct (IH (k + 1)%Z Hl) as (n & y & Hn & Hy & Hbefore & Hidx).
      exists (S n), y. repeat split; trivial.
      * intros [| j] b Hj Hb; cbn in Hb.
        -- congruence.
        -- apply (Hbefore j); [lia | assumption].
      * rewrite Hidx. lia.
Qed.

Lemma Js_get_of_nat (l : list A) (n : nat) :
  Js.get l (Z.of_nat n) = nth_error l n.
Proof.
  unfold Js.get. destruct (Z.ltb_spec (Z.of_nat n) 0); [lia |].
  now rewrite Nat2Z.id.
Qed.

End FindIndex.

(** ** The grade lookup *)

Lemma level_of_100 : level_of 100 = Some "C"%string.
Proof. eval_level_of. Qed.

Lemma THRESHOLDS_LEVELS_length : List.length THRESHOLDS = List.length LEVELS.
Proof. reflexivity. Qed.

Lemma findIndex_above_100 (x : R) :
  100 < x -> Js.findIndex THRESHOLDS (fun t => Js.le x t) = (-1)%Z.
Proof.
  intros Hx. unfold Js.findIndex. apply findIndex_from_none.
  intros t Ht. apply Js_le_false.
  unfold THRESHOLDS in Ht. cbn [In] in Ht.
  repeat (destruct Ht as [<- | Ht]; [lra |]).
  destruct Ht.
Qed.

Lemma level_of_defined (x : R) :
  x <= 100 -> exists l, level_of x = Some l /\ In l LEVELS.
Proof.
  intros Hx.
  destruct (findIndex_from_first (fun t => Js.le x t) THRESHOLDS 0)
    as (n & t & Hn & _ & _ & Hidx).
  { exists 100. split; [| now apply Js_le_true].
    unfold THRESHOLDS. cbn [In]. tauto. }
  unfold level_of, Js.findIndex. rewrite Hidx, Z.add_0_l, Js_get_of_nat.
  assert (Hlen : (n < List.length LEVELS)%nat).
  { rewrite <- THRESHOLDS_LEVELS_length. apply nth_error_Some. congruence. }
  destruct (nth_error LEVELS n) as [l |] eqn:Hl;
    [| apply nth_error_Some in Hlen; contradiction].
  exists l. split; [reflexivity |]. now apply (nth_error_In LEVELS n).
Qed.

(** C3, as the code has it: a percentile above 100 is above every threshold,
    [findIndex] answers -1 and the lookup in [LEVELS] is undefined; no
    label, and not the lowest one, is returned. *)
Theorem level_of_above_100 (x : R) :
  100 < x ->
  Js.findIndex THRESHOLDS (fun t => Js.le x t) = (-1)%Z /\
  level_of x = None.
Proof.
  intros Hx. pose proof (findIndex_above_100 x Hx) as Hidx.
  split; [exact Hidx |].
  unfold level_of. rewrite Hidx. reflexivity.
Qed.

Lemma level_of_above_100_witness :
  Js.findIndex THRESHOLDS (fun t => Js.le 101 t) = (-1)%Z /\
  level_of 101 = None.
Proof. apply level_of_above_100. lra. Defined.

(** C3, the claim as stated fails: at the percentile 101, above every
    threshold, the lookup is undefined where the claim has the lowest
    grade ["C"]. *)
Lemma level_of_101_undefined :
  100 < 101 /\ lowest_level = "C"%string /\ level_of 101 = None.
Proof.
  split; [lra |]. split; [reflexivity |]. eval_level_of.
Qed.

(** The undefined label is reached by [calculateRank] itself on a negative
    metric: the commits score of [commits = -80] is [1 - 2 ** 1 = -1]. *)
Lemma calculateRank_negative_commits :
  let r := calculateRank (Params.make false (-80) 0 0 0 0 0 0) in
  100 < Rank.percentile r /\ Rank.level r = None.
Proof.
  assert (H : 100 <
    Rank.percentile (calculateRank (Params.make false (-80) 0 0 0 0 0 0))).
  { cbn. unfold COMMITS_MEDIAN, PRS_MEDIAN, ISSUES_MEDIAN, REVIEWS_MEDIAN,
      STARS_MEDIAN, FOLLOWERS_MEDIAN.
    replace (-80 / 80) with (- (1)) by lra.
    replace (0 / 15) with 0 by lra. replace (0 / 2) with 0 by lra.
    replace (0 / 0.1) with 0 by lra.
    rewrite exponential_cdf_0, log_normal_cdf_0.
    unfold exponential_cdf. rewrite Ropp_involutive, Rpower_1 by lra.
    rewrite TOTAL_WEIGHT_value. unfold_weights. lra. }
  split; [exact H |].
  rewrite level_eq. unfold level_of.
  now rewrite (findIndex_above_100 _ H).
Qed.

(** For non-negative metrics, with [stars] up to the bound, the label is
    defined and is a label of the table: the percentile is at most 100,
    the last threshold. *)
Theorem calculateRank_level_defined (p : Params.t) :
  in_range p ->
  exists l, Rank.level (calculateRank p) = Some l /\ In l LEVELS.
Proof.
  intros [H _]. rewrite level_eq. apply level_of_defined.
  rewrite percentile_eq.
  pose proof (total_weighted_score_bounds p H) as Hb.
  set (w := Detailed.total_weighted_score _) in *. clearbody w.
  rewrite TOTAL_WEIGHT_value in *. lra.
Qed.

Lemma calculateRank_level_defined_witness :
  exists l,
    Rank.level (calculateRank (Params.make true 400 15 2 2 10 0.1 2)) = Some l /\
    In l LEVELS.
Proof.
  apply calculateRank_level_defined. split.
  - intros []; cbn; lra.
  - cbn. unfold STARS_LIMIT. lra.
Defined.

(** C4: for a percentile between 0 and 100 the lookup returns one label,
    the one at the position of the first threshold, in the order of the
    table, that is greater than or equal to the percentile; a percentile
    equal to a threshold gets the label of that threshold. *)
Theorem level_of_first_fit (x : R) :
  0 <= x <= 100 ->
  (exists (i : nat) (t : R) (l : string),
      nth_error THRESHOLDS i = Some t /\ nth_error LEVELS i = Some l /\
      x <= t /\
      (forall j t', (j < i)%nat -> nth_error THRESHOLDS j = Some t' -> t' < x) /\
      level_of x = Some l) /\
  (forall (i : nat) (l : string),
      nth_error THRESHOLDS i = Some x -> nth_error LEVELS i = Some l ->
      level_of x = Some l).
Proof.
  intros [_ Hx]. split.
  - destruct (findIndex_from_first (fun t => Js.le x t) THRESHOLDS 0)
      as (n & t & Hn & Ht & Hbefore & Hidx).
    { exists 100. split; [| now apply Js_le_true].
      unfold THRESHOLDS. cbn [In]. tauto. }
    assert (Hlen : (n < List.length LEVELS)%nat).
    { rewrite <- THRESHOLDS_LEVELS_length. apply nth_error_Some. congruence. }
    destruct (nth_error LEVELS n) as [l |] eqn:Hl;
      [| apply nth_error_Some in Hlen; contradiction].
    exists n, t, l. repeat split; trivial.
    + now apply Js_le_true_inv.
    + intros j t' Hj Ht'. apply Js_le_false_inv. now apply (Hbefore j).
    + unfold level_of, Js.findIndex. rewrite Hidx.
      now rewrite Z.add_0_l, Js_get_of_nat.
  - intros i l Hi Hl.
    do 12 (destruct i as [| i];
      [ cbn in Hi, Hl; injection Hi as <-; rewrite <- Hl; eval_level_of |]).
    destruct i; discriminate.
Qed.

Lemma level_of_first_fit_witness :
  exists (i : nat) (t : R) (l : string),
    nth_error THRESHOLDS i = Some t /\ nth_error LEVELS i = Some l /\
    12.5 <= t /\
    (forall j t', (j < i)%nat -> nth_error THRESHOLDS j = Some t' -> t' < 12.5) /\
    level_of 12.5 = Some l.
Proof.
  assert (H : 0 <= 12.5 <= 100) by lra.
  exact (proj1 (level_of_first_fit 12.5 H)).
Defined.

(** ** The all-zero input *)

Lemma all_zero_percentile (b : bool) (repos : R) :
  Rank.percentile (calculateRank (all_zero b repos)) = 100.
Proof.
  cbn. unfold PRS_MEDIAN, ISSUES_MEDIAN, REVIEWS_MEDIAN, STARS_MEDIAN,
    FOLLOWERS_MEDIAN.
  replace (0 / COMMITS_MEDIAN b) with 0 by (unfold Rdiv; ring).
  replace (0 / 15) with 0 by lra. replace (0 / 2) with 0 by lra.
  replace (0 / 0.1) with 0 by lra.
  rewrite exponential_cdf_0, log_normal_cdf_0, TOTAL_WEIGHT_value. lra.
Qed.

(** C5: when the six scored metrics are zero, [calculateRank] returns the
    percentile 100 and the worst grade, the last label ["C"] of the table. *)
Theorem all_zero_worst_grade (b : bool) (repos : R) :
  let r := calculateRank (all_zero b repos) in
  Rank.percentile r = 100 /\
  Rank.level r = Some lowest_level /\
  lowest_level = "C"%string.
Proof.
  cbv zeta. rewrite level_eq, all_zero_percentile.
  repeat split. apply level_of_100.
Qed.

(** ** The commit median *)

Lemma exponential_cdf_strict_incr (x y : R) :
  x < y -> exponential_cdf x < exponential_cdf y.
Proof.
  intros Hxy. unfold exponential_cdf.
  assert (Rpower 2 (- y) < Rpower 2 (- x)) by (apply Rpower_lt; lra).
  lra.
Qed.

(** C6, as the code has it: the commit median is 400 when [all_commits] is
    true and 80 when it is false; with 80 commits and the other fields
    fixed, non-negative and [stars] up to the bound, the percentile with
    [all_commits = true] is strictly higher than with
    [all_commits = false]. *)
Theorem all_commits_median (prs issues reviews repos stars followers : R) :
  in_range (Params.make false 80 prs issues reviews repos stars followers) ->
  (forall p : Params.t,
      PerMetric.commits (Detailed.scores (Rank.detailed (calculateRank p))) =
      exponential_cdf
        (Params.commits p / (if Params.all_commits p then 400 else 80))) /\
  Rank.percentile
    (calculateRank
       (Params.make false 80 prs issues reviews repos stars followers))
  < Rank.percentile
      (calculateRank
         (Params.make true 80 prs issues reviews repos stars followers)).
Proof.
  intros _. split.
  - intros p. reflexivity.
  - cbn.
    assert (H : exponential_cdf (80 / 400) < exponential_cdf (80 / 80))
      by (apply exponential_cdf_strict_incr; lra).
    rewrite TOTAL_WEIGHT_value. unfold_weights. lra.
Qed.

Lemma all_commits_median_witness :
  (forall p : Params.t,
      PerMetric.commits (Detailed.scores (Rank.detailed (calculateRank p))) =
      exponential_cdf
        (Params.commits p / (if Params.all_commits p then 400 else 80))) /\
  Rank.percentile (calculateRank (Params.make false 80 3 4 5 6 7 8))
  < Rank.percentile (calculateRank (Params.make true 80 3 4 5 6 7 8)).
Proof.
  apply all_commits_median. split.
  - intros []; cbn; lra.
  - cbn. unfold STARS_LIMIT. lra.
Defined.

(** ** The two normalisations as cumulative distributions *)

Lemma ln_2_pos : 0 < ln 2.
Proof. pose proof ln_lt_2. lra. Qed.

Lemma exponential_cdf_approaches_one : approaches_one exponential_cdf.
Proof.
  intros eps Heps. exists (- ln eps / ln 2). intros x Hx.
  split; [| apply exponential_cdf_lt_1].
  unfold exponential_cdf, Rpower.
  assert (Hlt : - x * ln 2 < ln eps).
  { pose proof ln_2_pos as H2.
    apply (Rmult_lt_compat_r (ln 2)) in Hx; [| assumption].
    unfold Rdiv in Hx. rewrite Rmult_assoc, Rinv_l in Hx by lra. lra. }
  apply exp_increasing in Hlt. rewrite exp_ln in Hlt by assumption. lra.
Qed.

Lemma log_normal_cdf_approaches_one : approaches_one log_normal_cdf.
Proof.
  intros eps Heps. exists (/ eps). intros x Hx.
  assert (Hinv : 0 < / eps) by now apply Rinv_0_lt_compat.
  assert (Hx0 : 0 <= x) by lra.
  split; [| now apply log_normal_cdf_range].
  assert (H1 : 1 < eps * x).
  { apply (Rmult_lt_compat_l eps) in Hx; [| assumption].
    rewrite Rinv_r in Hx by lra. exact Hx. }
  unfold log_normal_cdf.
  apply (Rmult_lt_reg_r (1 + x)); [lra |].
  unfold Rdiv. rewrite Rmult_assoc, Rinv_l by lra. lra.
Qed.

(** C7: the scores of commits, prs, issues and reviews are
    [1 - 2^(-(raw/median))], the scores of stars and followers are
    [r / (1 + r)] for the ratio [r = raw/median]; each of the two functions
    maps the ratio 0 to 0 and approaches 1 as the ratio grows. *)
Theorem scores_are_cdfs (p : Params.t) :
  let s := Detailed.scores (Rank.detailed (calculateRank p)) in
  (PerMetric.commits s =
     1 - Rpower 2 (- (Params.commits p / COMMITS_MEDIAN (Params.all_commits p))) /\
   PerMetric.prs s = 1 - Rpower 2 (- (Params.prs p / PRS_MEDIAN)) /\
   PerMetric.issues s = 1 - Rpower 2 (- (Params.issues p / ISSUES_MEDIAN)) /\
   PerMetric.reviews s = 1 - Rpower 2 (- (Params.reviews p / REVIEWS_MEDIAN))) /\
  (PerMetric.stars s =
     Params.stars p / STARS_MEDIAN / (1 + Params.stars p / STARS_MEDIAN) /\
   PerMetric.followers s =
     Params.followers p / FOLLOWERS_MEDIAN /
     (1 + Params.followers p / FOLLOWERS_MEDIAN)) /\
  (1 - Rpower 2 (- 0) = 0 /\ 0 / (1 + 0) = 0) /\
  (approaches_one (fun r => 1 - Rpower 2 (- r)) /\
   approaches_one (fun r => r / (1 + r))).
Proof.
  cbv zeta. split; [| split; [| split]].
  - repeat split.
  - repeat split.
  - split; [apply exponential_cdf_0 | apply log_normal_cdf_0].
  - split;
      [apply exponential_cdf_approaches_one | apply log_normal_cdf_approaches_one].
Qed.

(** ** The detailed breakdown *)

(** C8, as the code has it: for an input with non-negative metrics, with
    [stars] up to the bound, the total weighted score of the breakdown is
    at most the maximal possible score. *)
Theorem total_weighted_score_below_max (p : Params.t) :
  in_range p ->
  let d := Rank.detailed (calculateRank p) in
  Detailed.total_weighted_score d <= Detailed.max_possible_score d.
Proof.
  intros [H _]. cbv zeta.
  pose proof (total_weighted_score_bounds p H) as [_ Hlt].
  change (Detailed.max_possible_score (Rank.detailed (calculateRank p)))
    with TOTAL_WEIGHT.
  now apply Rlt_le.
Qed.

Lemma total_weighted_score_below_max_witness :
  let d := Rank.detailed (calculateRank (Params.make true 400 15 2 2 10 0.1 2)) in
  Detailed.total_weighted_score d <= Detailed.max_possible_score d.
Proof.
  apply total_weighted_score_below_max. split.
  - intros []; cbn; lra.
  - cbn. unfold STARS_LIMIT. lra.
Defined.

(** C9: [repos] has no influence: two inputs that agree on every field
    except [repos] get equal results (level, percentile and breakdown). *)
Theorem repos_unused (p q : Params.t) :
  agree_except_repos p q -> calculateRank p = calculateRank q.
Proof.
  intros [Hb Hm].
  pose proof (Hm Commits) as Hc. pose proof (Hm Prs) as Hp.
  pose proof (Hm Issues) as Hi. pose proof (Hm Reviews) as Hr.
  pose proof (Hm Stars) as Hs. pose proof (Hm Followers) as Hf.
  destruct p, q. cbn in Hb, Hc, Hp, Hi, Hr, Hs, Hf. subst.
  reflexivity.
Qed.

Lemma repos_unused_witness :
  calculateRank (Params.make false 10 20 30 40 1 50 60) =
  calculateRank (Params.make false 10 20 30 40 99 50 60).
Proof.
  apply repos_unused. split; [reflexivity |]. intros []; reflexivity.
Defined.

(** C10: the returned record is consistent: its level and percentile are
    those of the breakdown, every weighted contribution is the weight of
    the metric times its score, and the total weighted score is the sum of
    the six contributions. *)
Theorem result_consistent (p : Params.t) :
  let r := calculateRank p in
  let d := Rank.detailed r in
  let w := Detailed.weights d in
  let s := Detailed.scores d in
  let c := Detailed.weighted_contributions d in
  Rank.level r = Detailed.level d /\
  Rank.percentile r = Detailed.percentile d /\
  (PerMetric.commits c = PerMetric.commits w * PerMetric.commits s /\
   PerMetric.prs c = PerMetric.prs w * PerMetric.prs s /\
   PerMetric.issues c = PerMetric.issues w * PerMetric.issues s /\
   PerMetric.reviews c = PerMetric.reviews w * PerMetric.reviews s /\
   PerMetric.stars c = PerMetric.stars w * PerMetric.stars s /\
   PerMetric.followers c = PerMetric.followers w * PerMetric.followers s) /\
  Detailed.total_weighted_score d =
    PerMetric.commits c + PerMetric.prs c + PerMetric.issues c +
    PerMetric.reviews c + PerMetric.stars c + PerMetric.followers c.
Proof. cbv zeta. repeat split. Qed.

(** * Further properties of the rank calculation *)

(** ** The exact percentile on non-negative metrics *)

Lemma percentile_bounds (p : Params.t) :
  nonneg_metrics p -> 0 < Rank.percentile (calculateRank p) <= 100.
Proof.
  intros H. rewrite percentile_eq.
  pose proof (total_weighted_score_bounds p H) as Hb.
  set (w := Detailed.total_weighted_score _) in *. clearbody w.
  rewrite TOTAL_WEIGHT_value in *. lra.
Qed.

(** ** The percentile bands of the grades *)

(** The band of each grade, for every number: a label is returned exactly
    on the percentiles above the previous threshold and up to its own, and
    the best grade has no lower bound. *)
Theorem level_of_bands (x : R) :
  (level_of x = Some "S++"%string <-> x <= 0.1) /\
  (level_of x = Some "S+"%string <-> 0.1 < x <= 0.5) /\
  (level_of x = Some "S"%string <-> 0.5 < x <= 1) /\
  (level_of x = Some "S-"%string <-> 1 < x <= 5) /\
  (level_of x = Some "A+"%string <-> 5 < x <= 12.5) /\
  (level_of x = Some "A"%string <-> 12.5 < x <= 25) /\
  (level_of x = Some "A-"%string <-> 25 < x <= 37.5) /\
  (level_of x = Some "B+"%string <-> 37.5 < x <= 50) /\
  (level_of x = Some "B"%string <-> 50 < x <= 62.5) /\
  (level_of x = Some "B-"%string <-> 62.5 < x <= 75) /\
  (level_of x = Some "C+"%string <-> 75 < x <= 87.5) /\
  (level_of x = Some "C"%string <-> 87.5 < x <= 100).
Proof.
  unfold level_of, Js.findIndex, THRESHOLDS. cbn [Js.findIndex_from].
  unfold Js.le. repeat decide_le;
    repeat split; intros; try discriminate; try reflexivity; lra.
Qed.

(** ** What a single family of metrics can achieve *)

Lemma level_of_above_75 (x : R) :
  75 < x <= 100 -> level_of x = Some "C+"%string \/ level_of x = Some "C"%string.
Proof.
  intros Hx. unfold level_of, Js.findIndex, THRESHOLDS.
  cbn [Js.findIndex_from]. unfold Js.le.
  repeat decide_le; first [left; reflexivity | right; reflexivity].
Qed.

Lemma level_of_above_12_5 (x : R) :
  12.5 < x <= 100 ->
  exists l, level_of x = Some l /\
            In l ["A"; "A-"; "B+"; "B"; "B-"; "C+"; "C"]%string.
Proof.
  intros Hx. unfold level_of, Js.findIndex, THRESHOLDS.
  cbn [Js.findIndex_from]. unfold Js.le.
  repeat decide_le; eexists; (split; [reflexivity | cbn; tauto]).
Qed.

Lemma zero_ratio (m : R) : 0 / m = 0.
Proof. unfold Rdiv. ring. Qed.

(** Without commits the grade is ["C+"] or ["C"], whatever the other
    metrics, non-negative and [stars] up to the bound: the five other
    weights add up to 4.55 of 19.55, so the percentile stays above 76. *)
Theorem no_commits_grade (p : Params.t) :
  in_range p ->
  Params.commits p = 0 ->
  76 < Rank.percentile (calculateRank p) /\
  (Rank.level (calculateRank p) = Some "C+"%string \/
   Rank.level (calculateRank p) = Some "C"%string).
Proof.
  intros [H _] Hc.
  assert (Hx : 76 < Rank.percentile (calculateRank p) <= 100).
  { split; [| now apply percentile_bounds].
    destruct (scores_range p H) as (_ & Sp & Si & Sr & Ss & Sf).
    cbn in Sp, Si, Sr, Ss, Sf |- *.
    rewrite Hc, zero_ratio, exponential_cdf_0, TOTAL_WEIGHT_value.
    unfold_weights. lra. }
  split; [apply Hx |].
  rewrite level_eq. apply level_of_above_75. lra.
Qed.

Lemma no_commits_grade_witness :
  76 < Rank.percentile (calculateRank (Params.make false 0 900 50 60 3 7000 800)) /\
  (Rank.level (calculateRank (Params.make false 0 900 50 60 3 7000 800))
     = Some "C+"%string \/
   Rank.level (calculateRank (Params.make false 0 900 50 60 3 7000 800))
     = Some "C"%string).
Proof.
  apply no_commits_grade; [split | reflexivity].
  - intros []; cbn; lra.
  - cbn. unfold STARS_LIMIT. lra.
Defined.

(** With commits alone, the five other scored metrics at zero, the grade is
    never better than ["A"]: the weight of the commits is 15 of 19.55, so
    the percentile stays above 23. *)
Theorem commits_only_grade (p : Params.t) :
  nonneg_metrics p ->
  (forall m, m <> Commits -> metric_of m p = 0) ->
  23 < Rank.percentile (calculateRank p) /\
  exists l, Rank.level (calculateRank p) = Some l /\
            In l ["A"; "A-"; "B+"; "B"; "B-"; "C+"; "C"]%string.
Proof.
  intros H Hz.
  assert (Zp : Params.prs p = 0) by (apply (Hz Prs); discriminate).
  assert (Zi : Params.issues p = 0) by (apply (Hz Issues); discriminate).
  assert (Zr : Params.reviews p = 0) by (apply (Hz Reviews); discriminate).
  assert (Zs : Params.stars p = 0) by (apply (Hz Stars); discriminate).
  assert (Zf : Params.followers p = 0) by (apply (Hz Followers); discriminate).
  assert (Hx : 23 < Rank.percentile (calculateRank p) <= 100).
  { split; [| now apply percentile_bounds].
    destruct (scores_range p H) as (Sc & _).
    cbn in Sc |- *.
    rewrite Zp, Zi, Zr, Zs, Zf, !zero_ratio, exponential_cdf_0,
      log_normal_cdf_0, TOTAL_WEIGHT_value.
    unfold_weights. lra. }
  split; [apply Hx |].
  rewrite level_eq. apply level_of_above_12_5. lra.
Qed.

Lemma commits_only_grade_witness :
  23 < Rank.percentile (calculateRank (Params.make true 100000 0 0 0 12 0 0)) /\
  exists l,
    Rank.level (calculateRank (Params.make true 100000 0 0 0 12 0 0)) = Some l /\
    In l ["A"; "A-"; "B+"; "B"; "B-"; "C+"; "C"]%string.
Proof.
  apply commits_only_grade.
  - intros []; cbn; lra.
  - intros [] Hne; try reflexivity. now elim Hne.
Defined.

(** ** The flag [all_commits] *)

(** [all_commits] raises the bar of the commits by the factor five: five
    times the commits with the flag give the same result, in every field,
    as the commits without it. *)
Theorem all_commits_scales_by_five
  (c prs issues reviews repos stars followers : R) :
  calculateRank (Params.make true (5 * c) prs issues reviews repos stars followers)
  = calculateRank (Params.make false c prs issues reviews repos stars followers).
Proof.
  unfold calculateRank. cbn [Params.all_commits Params.commits].
  replace (5 * c / COMMITS_MEDIAN true) with (c / COMMITS_MEDIAN false)
    by (unfold COMMITS_MEDIAN; lra).
  reflexivity.
Qed.

(** ** The medians *)

Lemma exponential_cdf_1 : exponential_cdf 1 = 1 / 2.
Proof.
  unfold exponential_cdf. rewrite Rpower_Ropp, Rpower_1 by lra. lra.
Qed.

Lemma log_normal_cdf_1 : log_normal_cdf 1 = 1 / 2.
Proof. unfold log_normal_cdf. lra. Qed.

Lemma median_ratio (m : R) : 0 < m -> m / m = 1.
Proof. intros Hm. field. lra. Qed.

Lemma level_of_50 : level_of 50 = Some "B+"%string.
Proof. eval_level_of. Qed.

(** A metric equal to its median scores one half, whatever the other
    metrics; when the six metrics are at their medians the percentile is 50
    and the grade ["B+"]. *)
Theorem median_scores_half (p : Params.t) :
  (forall m,
      metric_of m p = median_of (Params.all_commits p) m ->
      score_of m (calculateRank p) = 1 / 2) /\
  ((forall m, metric_of m p = median_of (Params.all_commits p) m) ->
   Rank.percentile (calculateRank p) = 50 /\
   Rank.level (calculateRank p) = Some "B+"%string).
Proof.
  assert (Hhalf : forall m,
             metric_of m p = median_of (Params.all_commits p) m ->
             score_of m (calculateRank p) = 1 / 2).
  { intros [] Hm; cbn in Hm |- *;
      rewrite Hm, median_ratio by median_pos;
      first [apply exponential_cdf_1 | apply log_normal_cdf_1]. }
  split; [exact Hhalf |].
  intros Hall.
  assert (H50 : Rank.percentile (calculateRank p) = 50).
  { pose proof (Hhalf Commits (Hall Commits)) as Sc.
    pose proof (Hhalf Prs (Hall Prs)) as Sp.
    pose proof (Hhalf Issues (Hall Issues)) as Si.
    pose proof (Hhalf Reviews (Hall Reviews)) as Sr.
    pose proof (Hhalf Stars (Hall Stars)) as Ss.
    pose proof (Hhalf Followers (Hall Followers)) as Sf.
    cbn in Sc, Sp, Si, Sr, Ss, Sf |- *.
    rewrite Sc, Sp, Si, Sr, Ss, Sf, TOTAL_WEIGHT_value.
    unfold_weights. lra. }
  split; [exact H50 |].
  rewrite level_eq, H50. apply level_of_50.
Qed.

(** ** The best grade *)

Lemma exponential_cdf_10 : exponential_cdf 10 = 1 - / 1024.
Proof.
  unfold exponential_cdf. rewrite Rpower_Ropp.
  replace 10 with (INR 10) by (simpl; lra).
  rewrite Rpower_pow by lra.
  replace (2 ^ 10) with 1024 by (simpl; lra).
  reflexivity.
Qed.

Lemma level_of_at_most_0_1 (x : R) : x <= 0.1 -> level_of x = Some "S++"%string.
Proof.
  intros Hx. unfold level_of, Js.findIndex, THRESHOLDS.
  cbn [Js.findIndex_from]. unfold Js.le.
  repeat decide_le; reflexivity.
Qed.

(** The best grade is reached: from 4000 commits, 150 pull requests, 20
    issues, 20 reviews, 100 stars (up to the bound) and 2000 followers on,
    the percentile is at most 0.1 and the grade is ["S++"], with or without
    [all_commits]. *)
Theorem top_grade_reached (p : Params.t) :
  4000 <= Params.commits p -> 150 <= Params.prs p ->
  20 <= Params.issues p -> 20 <= Params.reviews p ->
  100 <= Params.stars p <= STARS_LIMIT -> 2000 <= Params.followers p ->
  Rank.percentile (calculateRank p) <= 0.1 /\
  Rank.level (calculateRank p) = Some "S++"%string.
Proof.
  intros Hc Hp Hi Hr [Hs _] Hf.
  assert (Hx : Rank.percentile (calculateRank p) <= 0.1).
  { assert (Ec : exponential_cdf 10
                 <= exponential_cdf
                      (Params.commits p / COMMITS_MEDIAN (Params.all_commits p))).
    { apply exponential_cdf_incr.
      apply (Rmult_le_reg_r (COMMITS_MEDIAN (Params.all_commits p)));
        [median_pos |].
      unfold Rdiv. rewrite Rmult_assoc, Rinv_l by median_pos.
      unfold COMMITS_MEDIAN. destruct (Params.all_commits p); lra. }
    assert (Ep : exponential_cdf 10 <= exponential_cdf (Params.prs p / PRS_MEDIAN))
      by (apply exponential_cdf_incr; unfold PRS_MEDIAN; lra).
    assert (Ei : exponential_cdf 10
                 <= exponential_cdf (Params.issues p / ISSUES_MEDIAN))
      by (apply exponential_cdf_incr; unfold ISSUES_MEDIAN; lra).
    assert (Er : exponential_cdf 10
                 <= exponential_cdf (Params.reviews p / REVIEWS_MEDIAN))
      by (apply exponential_cdf_incr; unfold REVIEWS_MEDIAN; lra).
    assert (Es : log_normal_cdf 1000
                 <= log_normal_cdf (Params.stars p / STARS_MEDIAN))
      by (apply log_normal_cdf_incr; unfold STARS_MEDIAN; lra).
    assert (Ef : log_normal_cdf 1000
                 <= log_normal_cdf (Params.followers p / FOLLOWERS_MEDIAN))
      by (apply log_normal_cdf_incr; unfold FOLLOWERS_MEDIAN; lra).
    rewrite exponential_cdf_10 in Ec, Ep, Ei, Er.
    assert (E1000 : log_normal_cdf 1000 = 1000 / 1001)
      by (unfold log_normal_cdf; lra).
    rewrite E1000 in Es, Ef.
    cbn. rewrite TOTAL_WEIGHT_value. unfold_weights. lra. }
  split; [exact Hx |].
  rewrite level_eq. now apply level_of_at_most_0_1.
Qed.

Lemma top_grade_reached_witness :
  Rank.percentile
    (calculateRank (Params.make true 4000 150 20 20 30 100 2000)) <= 0.1 /\
  Rank.level
    (calculateRank (Params.make true 4000 150 20 20 30 100 2000))
    = Some "S++"%string.
Proof. apply top_grade_reached; cbn; unfold STARS_LIMIT; lra. Defined.

(** * The code in binary64 *)

(** ** Engines and [NaN] *)

Lemma pow2_reference_conforming : B64.conforming B64.pow2_reference.
Proof.
  intros y r H. unfold B64.pow2_reference. now rewrite H.
Qed.

(** A sum with [NaN] is [NaN], whatever the other summand. *)
Lemma b64_add_nan (x : float) : (x + nan)%float = nan.
Proof.
  apply Prim2SF_inj. rewrite add_spec.
  change (Prim2SF nan) with S754_nan.
  unfold SF64add, SFadd. destruct (Prim2SF x); reflexivity.
Qed.

(** ** Overflow of [stars / 0.1] *)

(** C1, the claim as stated fails on the code: [stars = 2^1023] is a
    non-negative finite number, [stars / 0.1] overflows to [Infinity], the
    score of the stars [Infinity / (1 + Infinity)] is [NaN] and so is the
    percentile, which is neither at least 0 nor at most 100. *)
Lemma b64_percentile_nan_at_huge_stars :
  B64.on_every_engine (fun pow2 =>
    let p := B64.Params.make false 0 0 0 0 0 0x1p1023 0 in
    let r := B64.calculateRank pow2 p in
    B64.nonneg_finite p = true /\
    B64.Rank.percentile r = nan /\
    (0 <=? B64.Rank.percentile r)%float = false /\
    (B64.Rank.percentile r <=? 100)%float = false).
Proof.
  intros pow2 Hc. b64_run pow2 Hc. repeat split.
Qed.

(** C6, the claim as stated fails on the code: with 80 commits and
    [stars = 2^1023] held fixed the percentile is [NaN] with and without
    [all_commits], on every engine, so that the one is not strictly higher
    than the other. *)
Lemma b64_all_commits_nan_at_huge_stars :
  B64.on_every_engine (fun pow2 =>
    let on := B64.calculateRank pow2
                (B64.Params.make true 80 0 0 0 0 0x1p1023 0) in
    let off := B64.calculateRank pow2
                 (B64.Params.make false 80 0 0 0 0 0x1p1023 0) in
    B64.Rank.percentile on = nan /\
    B64.Rank.percentile off = nan /\
    (B64.Rank.percentile off <? B64.Rank.percentile on)%float = false).
Proof.
  intros pow2 Hc. b64_run pow2 Hc.
  rewrite !b64_add_nan. vm_compute. repeat split.
Qed.

(** ** Rounding *)


(** C8, the claim as stated fails on the code: at 4800 commits, 900 pull
    requests, 120 issues, 120 reviews, 1e16 stars and 2e17 followers every
    score rounds to 1, and the total weighted score is the maximal possible
    score, 19.55, not a number below it. *)
Lemma b64_total_reaches_max :
  B64.on_every_engine (fun pow2 =>
    let p := B64.Params.make false 4800 900 120 120 0 1e16 2e17 in
    let d := B64.Rank.detailed (B64.calculateRank pow2 p) in
    B64.nonneg_finite p = true /\
    B64.Detailed.total_weighted_score d = B64.Detailed.max_possible_score d /\
    (B64.Detailed.total_weighted_score d
       <? B64.Detailed.max_possible_score d)%float = false).
Proof.
  intros pow2 Hc. b64_run pow2 Hc. repeat split.
Qed.

(** ** Where the two readings meet *)

(** At the bound of [in_range] nothing overflows: [stars = 1.79e307] gives
    the ratio 1.79e308, the score 1 and a percentile below 100. *)
Lemma b64_percentile_at_stars_limit :
  B64.on_every_engine (fun pow2 =>
    let r :=
      B64.calculateRank pow2 (B64.Params.make false 0 0 0 0 0 1.79e307 0) in
    B64.PerMetric.stars (B64.Detailed.scores (B64.Rank.detailed r)) = 1%float /\
    (0 <=? B64.Rank.percentile r)%float = true /\
    (B64.Rank.percentile r <=? 100)%float = true /\
    B64.Rank.level r = Some "C"%string).
Proof.
  intros pow2 Hc. b64_run pow2 Hc. repeat split.
Qed.

(** The all-zero input in binary64: every step is exact, the percentile is
    100 and the level ["C"], as on the exact reading. *)
Lemma b64_all_zero :
  B64.on_every_engine (fun pow2 =>
    let r := B64.calculateRank pow2 (B64.Params.make true 0 0 0 0 0 0 0) in
    B64.Rank.percentile r = 100%float /\
    B64.Rank.level r = Some "C"%string).
Proof.
  intros pow2 Hc. b64_run pow2 Hc. repeat split.
Qed.

(** The six metrics at their medians in binary64: every score is one half,
    the percentile is 50 and the level ["B+"], as on the exact reading. *)
Lemma b64_medians :
  B64.on_every_engine (fun pow2 =>
    let r := B64.calculateRank pow2 (B64.Params.make true 400 15 2 2 10 0.1 2) in
    B64.Rank.percentile r = 50%float /\
    B64.Rank.level r = Some "B+"%string).
Proof.
  intros pow2 Hc. b64_run pow2 Hc. repeat split.
Qed.

(** A negative metric in binary64: [commits = -80] scores [1 - 2 ** 1 = -1],
    the percentile is above 100 and the level undefined. *)
Lemma b64_negative_commits :
  B64.on_every_engine (fun pow2 =>
    let r := B64.calculateRank pow2 (B64.Params.make false (-80) 0 0 0 0 0 0) in
    (100 <? B64.Rank.percentile r)%float = true /\
    B64.Rank.level r = None).
Proof.
  intros pow2 Hc. b64_run pow2 Hc. repeat split.
Qed.
